(** * ShaderTypes.h: the layout contract shared by the host and the shaders

    A shallow embedding of [MetalShooter/ShaderTypes.h].  The header holds
    no executable code: it declares structures, capacity constants and
    binding-slot enumerations.  The declarations are embedded as data (the
    fields of each structure in declaration order, with the type, the array
    length and the [[attribute(n)]] annotation the header writes), and the
    compiler's default structure layout is an executable function over
    them, so that sizes and offsets are computed, not asserted. *)

From Stdlib Require Import ZArith List String Bool Lia.
From Stdlib Require Import Floats.SpecFloat.
Import ListNotations.
Local Open Scope string_scope.
Local Open Scope Z_scope.

(** ** Capacity constants (the header's [#define]s) *)

Definition MAX_POINT_LIGHTS : Z := 8.
Definition MAX_SPOT_LIGHTS : Z := 8.
Definition MAX_CASCADE_COUNT : Z := 4.

(** ** Types of the fields *)

Record field_of (T : Type) : Type := Field {
  fname : string;        (* the declared name *)
  fty : T;               (* the declared type *)
  fattr : option Z       (* the [[attribute(n)]] annotation, when present *)
}.
Arguments Field {T} fname fty fattr.
Arguments fname {T} f.
Arguments fty {T} f.
Arguments fattr {T} f.

#[local] Set Warnings "-register-all".
Inductive ctype : Type :=
| Tfloat                                   (* float *)
| Tint                                     (* int *)
| Tsimd_float2                             (* simd_float2 *)
| Tsimd_float3                             (* simd_float3 *)
| Tsimd_float4                             (* simd_float4 *)
| Tsimd_float4x4                           (* simd_float4x4 *)
| Tarray (elt : ctype) (len : Z)           (* elt name[len] *)
| Tstruct (sname : string) (fields : list (field_of ctype)).

#[local] Set Warnings "register-all".

Definition field : Type := field_of ctype.

(** Induction over types that reaches the fields of a structure. *)
Section ctype_induction.
Variable P : ctype -> Prop.
Hypothesis Hfloat : P Tfloat.
Hypothesis Hint : P Tint.
Hypothesis Hf2 : P Tsimd_float2.
Hypothesis Hf3 : P Tsimd_float3.
Hypothesis Hf4 : P Tsimd_float4.
Hypothesis Hf4x4 : P Tsimd_float4x4.
Hypothesis Harray : forall elt len, P elt -> P (Tarray elt len).
Hypothesis Hstruct :
  forall n fs, Forall (fun f => P (fty f)) fs -> P (Tstruct n fs).

Fixpoint ctype_fields_ind (t : ctype) : P t :=
  match t with
  | Tfloat => Hfloat
  | Tint => Hint
  | Tsimd_float2 => Hf2
  | Tsimd_float3 => Hf3
  | Tsimd_float4 => Hf4
  | Tsimd_float4x4 => Hf4x4
  | Tarray elt len => Harray elt len (ctype_fields_ind elt)
  | Tstruct n fs =>
      Hstruct n fs
        ((fix all (l : list field) : Forall (fun f => P (fty f)) l :=
            match l with
            | [] => Forall_nil _
            | f :: l' => Forall_cons f (ctype_fields_ind (fty f)) (all l')
            end) fs)
  end.
End ctype_induction.

(** A plain field, and a field carrying an attribute slot. *)
Definition fld (t : ctype) (n : string) : field := Field n t None.
Definition fld_attr (t : ctype) (n : string) (slot : Z) : field :=
  Field n t (Some slot).

(** ** The platform's layout rules *)

(** Rounding an offset up to the next multiple of an alignment. *)
Definition align_up (n a : Z) : Z := ((n + a - 1) / a) * a.

(** Modelled from the spec: the alignment of the scalar, vector and matrix
    types, which the header takes from <simd/simd.h> and the language (not
    under src/).  32-bit floats and ints are 4-byte aligned; a two-component
    float vector is 8-byte aligned; three- and four-component vectors and the
    4x4 matrix are 16-byte aligned (the constant-buffer alignment unit).  An
    array is aligned as its element, a structure as its most aligned field. *)
Fixpoint alignof (t : ctype) : Z :=
  match t with
  | Tfloat => 4
  | Tint => 4
  | Tsimd_float2 => 8
  | Tsimd_float3 => 16
  | Tsimd_float4 => 16
  | Tsimd_float4x4 => 16
  | Tarray elt _ => alignof elt
  | Tstruct _ fs =>
      (fix max_align (l : list field) : Z :=
         match l with
         | [] => 1
         | f :: l' => Z.max (alignof (fty f)) (max_align l')
         end) fs
  end.

(** Modelled from the spec: the size of the scalar, vector and matrix types
    of <simd/simd.h> (not under src/), and the default (non-packed) layout
    of arrays and structures.  A three-component vector occupies the 16
    bytes of a four-component one; the matrix is four columns of 16 bytes.
    In a structure every field is placed at the next offset that is a
    multiple of its alignment, and the whole is rounded up to the
    structure's alignment. *)
Fixpoint sizeof (t : ctype) : Z :=
  match t with
  | Tfloat => 4
  | Tint => 4
  | Tsimd_float2 => 8
  | Tsimd_float3 => 16
  | Tsimd_float4 => 16
  | Tsimd_float4x4 => 64
  | Tarray elt len => sizeof elt * len
  | Tstruct _ fs =>
      align_up
        ((fix place (l : list field) (off : Z) : Z :=
            match l with
            | [] => off
            | f :: l' =>
                place l' (align_up off (alignof (fty f)) + sizeof (fty f))
            end) fs 0)
        (alignof t)
  end.

(** The alignment of a field list, and the offset one past its last field
    when the list is laid out from [off]: the two local loops of [alignof]
    and [sizeof], named. *)
Fixpoint max_align (l : list field) : Z :=
  match l with
  | [] => 1
  | f :: l' => Z.max (alignof (fty f)) (max_align l')
  end.

Fixpoint place (l : list field) (off : Z) : Z :=
  match l with
  | [] => off
  | f :: l' => place l' (align_up off (alignof (fty f)) + sizeof (fty f))
  end.

(** The fields of a type (none unless it is a structure). *)
Definition fields_of (t : ctype) : list field :=
  match t with
  | Tstruct _ fs => fs
  | _ => []
  end.

(** The offsets of the fields of a list laid out from [off], in declaration
    order. *)
Fixpoint offsets_from (l : list field) (off : Z) : list (string * Z) :=
  match l with
  | [] => []
  | f :: l' =>
      let o := align_up off (alignof (fty f)) in
      (fname f, o) :: offsets_from l' (o + sizeof (fty f))
  end.

Definition field_offsets (t : ctype) : list (string * Z) :=
  offsets_from (fields_of t) 0.

Fixpoint assoc {A : Type} (k : string) (l : list (string * A)) : option A :=
  match l with
  | [] => None
  | (k', v) :: l' => if String.eqb k k' then Some v else assoc k l'
  end.

(** [offsetof t n]: the offset of field [n] in structure [t]. *)
Definition offsetof (t : ctype) (n : string) : option Z :=
  assoc n (field_offsets t).

(** The declared type of field [n]. *)
Definition field_type (t : ctype) (n : string) : option ctype :=
  assoc n (map (fun f => (fname f, fty f)) (fields_of t)).

(** ** The structures of the header, in declaration order *)

Definition VertexIn : ctype :=
  Tstruct "VertexIn"
    [ fld_attr Tsimd_float3 "position" 0;
      fld_attr Tsimd_float3 "normal" 1;
      fld_attr Tsimd_float2 "texCoords" 2;
      fld_attr Tsimd_float4 "color" 3;
      fld_attr Tsimd_float3 "tangent" 4 ].

Definition Uniforms : ctype :=
  Tstruct "Uniforms"
    [ fld Tsimd_float4x4 "modelMatrix";
      fld Tsimd_float4x4 "viewMatrix";
      fld Tsimd_float4x4 "projectionMatrix" ].

Definition DirectionalLightData : ctype :=
  Tstruct "DirectionalLightData"
    [ fld Tsimd_float3 "direction";
      fld Tfloat "intensity";
      fld Tsimd_float3 "color";
      fld Tfloat "padding" ].

Definition PointLightData : ctype :=
  Tstruct "PointLightData"
    [ fld Tsimd_float3 "position";
      fld Tfloat "intensity";
      fld Tsimd_float3 "color";
      fld Tfloat "range" ].

Definition SpotLightData : ctype :=
  Tstruct "SpotLightData"
    [ fld Tsimd_float3 "position";
      fld Tfloat "intensity";
      fld Tsimd_float3 "direction";
      fld Tfloat "range";
      fld Tsimd_float3 "color";
      fld Tfloat "innerConeAngle";
      fld Tfloat "outerConeAngle";
      fld Tfloat "padding1";
      fld Tsimd_float2 "padding2" ].

Definition LightingData : ctype :=
  Tstruct "LightingData"
    [ fld Tsimd_float3 "ambientColor";
      fld Tfloat "padding0";
      fld Tsimd_float3 "cameraPosition";
      fld Tfloat "padding1";
      fld DirectionalLightData "directionalLight";
      fld Tint "pointLightCount";
      fld Tint "spotLightCount";
      fld Tsimd_float2 "padding2";
      fld (Tarray PointLightData MAX_POINT_LIGHTS) "pointLights";
      fld (Tarray SpotLightData MAX_SPOT_LIGHTS) "spotLights";
      fld Tsimd_float4 "cascadeDistances";
      fld (Tarray Tsimd_float4x4 MAX_CASCADE_COUNT) "shadowMatrices" ].

Definition MaterialData : ctype :=
  Tstruct "MaterialData"
    [ fld Tsimd_float4 "baseColor";
      fld Tfloat "metallic";
      fld Tfloat "roughness";
      fld Tfloat "ao";
      fld Tfloat "padding0";
      fld Tsimd_float3 "emissive";
      fld Tfloat "padding1" ].

Definition ShadowUniforms : ctype :=
  Tstruct "ShadowUniforms"
    [ fld Tsimd_float4x4 "mvpMatrix";
      fld Tfloat "bias";
      fld Tsimd_float3 "padding" ].

Definition PointShadowUniforms : ctype :=
  Tstruct "PointShadowUniforms"
    [ fld Tsimd_float4x4 "mvpMatrix";
      fld Tsimd_float3 "lightPosition";
      fld Tfloat "lightRange" ].

Definition Light : ctype :=
  Tstruct "Light"
    [ fld Tsimd_float3 "position";
      fld Tsimd_float3 "direction";
      fld Tsimd_float3 "color";
      fld Tfloat "intensity";
      fld Tfloat "range";
      fld Tfloat "spotAngle" ].

Definition Material : ctype :=
  Tstruct "Material"
    [ fld Tsimd_float4 "albedo";
      fld Tfloat "metallic";
      fld Tfloat "roughness";
      fld Tfloat "ao";
      fld Tfloat "emission" ].

(** Every structure the header declares. *)
Definition all_structs : list ctype :=
  [ VertexIn; Uniforms; DirectionalLightData; PointLightData; SpotLightData;
    LightingData; MaterialData; ShadowUniforms; PointShadowUniforms;
    Light; Material ].

Definition struct_name (t : ctype) : string :=
  match t with
  | Tstruct n _ => n
  | _ => ""
  end.

(** ** Explicit and implicit padding *)

(** The names the header gives to its padding fields. *)
Definition padding_names : list string :=
  [ "padding"; "padding0"; "padding1"; "padding2" ].

Definition is_padding (f : field) : bool :=
  existsb (String.eqb (fname f)) padding_names.

Definition padding_fields (t : ctype) : list field :=
  filter is_padding (fields_of t).

Definition sum_sizes (l : list field) : Z :=
  fold_right (fun f acc => sizeof (fty f) + acc) 0 l.

(** The sum of the sizes of all declared fields, padding fields included. *)
Definition declared_size (t : ctype) : Z := sum_sizes (fields_of t).

(** The sum of the sizes of the fields that carry data. *)
Definition natural_size (t : ctype) : Z :=
  sum_sizes (filter (fun f => negb (is_padding f)) (fields_of t)).

(** The bytes the layout skips in front of the fields to align them. *)
Fixpoint gaps_from (l : list field) (off : Z) : Z :=
  match l with
  | [] => 0
  | f :: l' =>
      let o := align_up off (alignof (fty f)) in
      (o - off) + gaps_from l' (o + sizeof (fty f))
  end.

Definition internal_padding (t : ctype) : Z := gaps_from (fields_of t) 0.

(** The bytes the layout adds after the last field. *)
Definition tail_padding (t : ctype) : Z := sizeof t - place (fields_of t) 0.

Definition implicit_padding (t : ctype) : Z :=
  internal_padding t + tail_padding t.

(** The size of the components alone: four bytes for each float or int,
    so twelve for a three-component vector, with no alignment at all. *)
Fixpoint packed_size (t : ctype) : Z :=
  match t with
  | Tfloat => 4
  | Tint => 4
  | Tsimd_float2 => 8
  | Tsimd_float3 => 12
  | Tsimd_float4 => 16
  | Tsimd_float4x4 => 64
  | Tarray elt len => packed_size elt * len
  | Tstruct _ fs =>
      (fix sum (l : list field) : Z :=
         match l with
         | [] => 0
         | f :: l' => packed_size (fty f) + sum l'
         end) fs
  end.

(** A structure is explicitly padded when, if its data fields do not sum to
    a multiple of 16, it declares padding fields and the declared fields
    then sum to a multiple of 16. *)
Definition explicitly_padded (t : ctype) : Prop :=
  natural_size t mod 16 <> 0 ->
  padding_fields t <> [] /\ declared_size t mod 16 = 0.

(** A structure relies on tail padding alone when it reaches its size with
    no padding field and no gap between fields, only bytes after the last
    field. *)
Definition tail_padding_only (t : ctype) : Prop :=
  padding_fields t = [] /\ internal_padding t = 0 /\ 0 < tail_padding t.

Definition has_padding (t : ctype) : bool :=
  match padding_fields t with
  | [] => false
  | _ :: _ => true
  end.

(** The padding rule in the words of the specification: every structure is
    explicitly padded, and none relies on tail padding alone. *)
Definition explicit_padding_rule : Prop :=
  Forall (fun t => explicitly_padded t /\ ~ tail_padding_only t) all_structs.

(** ** Array fields *)

Definition array_length (t : ctype) (n : string) : option Z :=
  match field_type t n with
  | Some (Tarray _ len) => Some len
  | _ => None
  end.

(** [t.n[i]] names an element of the array as declared. *)
Definition index_in_bounds (t : ctype) (n : string) (i : Z) : bool :=
  match array_length t n with
  | Some len => (0 <=? i) && (i <? len)
  | None => false
  end.

(** The offset of [t.n[i]] in [t], as address arithmetic computes it (with
    no bounds check). *)
Definition elem_offset (t : ctype) (n : string) (i : Z) : option Z :=
  match field_type t n, offsetof t n with
  | Some (Tarray elt _), Some base => Some (base + sizeof elt * i)
  | _, _ => None
  end.

(** ** Binding-slot enumerations *)

(** An enumeration is its enumerators in declaration order; the backing
    type is a 32-bit integer for the shader compiler and the host's native
    integer otherwise. *)
Definition enumeration : Type := list (string * Z).

Definition enum_value (e : enumeration) (n : string) : option Z := assoc n e.

Definition in_int32 (z : Z) : bool := (- 2 ^ 31 <=? z) && (z <? 2 ^ 31).

Definition BufferIndexVertices : Z := 0.
Definition BufferIndexUniforms : Z := 1.
Definition BufferIndexLightingData : Z := 2.
Definition BufferIndexMaterialData : Z := 3.
Definition BufferIndexShadowData : Z := 4.
Definition BufferIndexLights : Z := 2.
Definition BufferIndexMaterial : Z := 3.

Definition BufferIndex : enumeration :=
  [ ("BufferIndexVertices", BufferIndexVertices);
    ("BufferIndexUniforms", BufferIndexUniforms);
    ("BufferIndexLightingData", BufferIndexLightingData);
    ("BufferIndexMaterialData", BufferIndexMaterialData);
    ("BufferIndexShadowData", BufferIndexShadowData);
    ("BufferIndexLights", BufferIndexLights);
    ("BufferIndexMaterial", BufferIndexMaterial) ].

Definition VertexAttributePosition : Z := 0.
Definition VertexAttributeNormal : Z := 1.
Definition VertexAttributeTexCoord : Z := 2.
Definition VertexAttributeColor : Z := 3.
Definition VertexAttributeTangent : Z := 4.

Definition VertexAttribute : enumeration :=
  [ ("VertexAttributePosition", VertexAttributePosition);
    ("VertexAttributeNormal", VertexAttributeNormal);
    ("VertexAttributeTexCoord", VertexAttributeTexCoord);
    ("VertexAttributeColor", VertexAttributeColor);
    ("VertexAttributeTangent", VertexAttributeTangent) ].

Definition TextureIndexAlbedo : Z := 0.
Definition TextureIndexNormal : Z := 1.
Definition TextureIndexMetallicRoughness : Z := 2.
Definition TextureIndexAO : Z := 3.
Definition TextureIndexEmissive : Z := 4.
Definition TextureIndexShadowMap0 : Z := 5.
Definition TextureIndexShadowMap1 : Z := 6.
Definition TextureIndexShadowMap2 : Z := 7.
Definition TextureIndexShadowMap3 : Z := 8.
Definition TextureIndexMetallic : Z := 2.
Definition TextureIndexRoughness : Z := 3.
Definition TextureIndexEmission : Z := 5.

Definition TextureIndex : enumeration :=
  [ ("TextureIndexAlbedo", TextureIndexAlbedo);
    ("TextureIndexNormal", TextureIndexNormal);
    ("TextureIndexMetallicRoughness", TextureIndexMetallicRoughness);
    ("TextureIndexAO", TextureIndexAO);
    ("TextureIndexEmissive", TextureIndexEmissive);
    ("TextureIndexShadowMap0", TextureIndexShadowMap0);
    ("TextureIndexShadowMap1", TextureIndexShadowMap1);
    ("TextureIndexShadowMap2", TextureIndexShadowMap2);
    ("TextureIndexShadowMap3", TextureIndexShadowMap3);
    ("TextureIndexMetallic", TextureIndexMetallic);
    ("TextureIndexRoughness", TextureIndexRoughness);
    ("TextureIndexEmission", TextureIndexEmission) ].

Definition SamplerIndexTexture : Z := 0.
Definition SamplerIndexShadow : Z := 1.

Definition SamplerIndex : enumeration :=
  [ ("SamplerIndexTexture", SamplerIndexTexture);
    ("SamplerIndexShadow", SamplerIndexShadow) ].

(** The enumerators that share the value of enumerator [n]. *)
Definition aliases_of (e : enumeration) (n : string) : list string :=
  match enum_value e n with
  | Some v =>
      map fst (filter (fun p => (snd p =? v) && negb (String.eqb (fst p) n)) e)
  | None => []
  end.

(** ** Values and their raw bytes *)

(** Modelled from the spec: the 32-bit IEEE-754 floats the fields hold.  The
    header only names the type [float]; its values are Rocq's specification
    floats at precision 24 and maximal exponent 128. *)
Definition float32 : Type := spec_float.
Definition prec32 : Z := 24.
Definition emax32 : Z := 128.

(** The float written as the integer literal [n]. *)
Definition float32_of_Z (n : Z) : float32 :=
  binary_normalize prec32 emax32 n 0 false.

(** Modelled from the spec: the binary32 interchange encoding (one sign
    bit, eight bits of biased exponent, 23 bits of fraction), which the
    header leaves to the platform. *)
Definition bits_of_float32 (f : float32) : Z :=
  match f with
  | S754_zero s => if s then 2 ^ 31 else 0
  | S754_infinity s => (if s then 2 ^ 31 else 0) + 255 * 2 ^ 23
  | S754_nan => 255 * 2 ^ 23 + 2 ^ 22
  | S754_finite s m e =>
      (if s then 2 ^ 31 else 0) +
      (if Zpos m <? 2 ^ 23 then Zpos m
       else (e + 150) * 2 ^ 23 + (Zpos m - 2 ^ 23))
  end.

(** The [n] low-order bytes of [z], least significant first. *)
Fixpoint le_bytes (n : nat) (z : Z) : list Z :=
  match n with
  | O => []
  | S n' => z mod 256 :: le_bytes n' (z / 256)
  end.

Fixpoint of_le_bytes (bs : list Z) : Z :=
  match bs with
  | [] => 0
  | b :: bs' => b + 256 * of_le_bytes bs'
  end.

Definition encode_float32 (f : float32) : list Z :=
  le_bytes 4 (bits_of_float32 f).

(** A three-component vector: its lanes x, y, z. *)
Record simd_float3_value : Type := Float3 {
  lane_x : float32;
  lane_y : float32;
  lane_z : float32
}.

Definition encode_float3 (v : simd_float3_value) : list Z :=
  encode_float32 (lane_x v) ++ encode_float32 (lane_y v)
    ++ encode_float32 (lane_z v).

(** A value of the structure DirectionalLightData, field by field. *)
Record DirectionalLightData_value : Type := {
  direction : simd_float3_value;
  intensity : float32;
  color : simd_float3_value;
  padding : float32
}.

(** Overwriting the bytes of [buf] from position [off] on with [bs]; the
    buffer keeps its length. *)
Fixpoint write_at (buf : list Z) (off : nat) (bs : list Z) : list Z :=
  match buf, off with
  | [], _ => []
  | b :: buf', S off' => b :: write_at buf' off' bs
  | b :: buf', O =>
      match bs with
      | [] => buf
      | x :: bs' => x :: write_at buf' O bs'
      end
  end.

Definition store (buf : list Z) (off : option Z) (bs : list Z) : list Z :=
  match off with
  | Some o => write_at buf (Z.to_nat o) bs
  | None => buf
  end.

(** Reading [n] bytes of [buf] from position [off]. *)
Definition load (buf : list Z) (off : Z) (n : nat) : list Z :=
  firstn n (skipn (Z.to_nat off) buf).

(** Modelled from the spec: serialising a DirectionalLightData to its raw
    bytes, which the repository does outside src/.  The buffer has the size
    of the structure, every byte no field covers is zero, and every field is
    written in little-endian binary32 at the offset the declaration gives
    it. *)
Definition serialize_DirectionalLightData
    (v : DirectionalLightData_value) : list Z :=
  let t := DirectionalLightData in
  let b0 := repeat 0 (Z.to_nat (sizeof t)) in
  let b1 := store b0 (offsetof t "direction") (encode_float3 (direction v)) in
  let b2 := store b1 (offsetof t "intensity") (encode_float32 (intensity v)) in
  let b3 := store b2 (offsetof t "color") (encode_float3 (color v)) in
  store b3 (offsetof t "padding") (encode_float32 (padding v)).

(** The light of the spec's example: direction (0,-1,0), intensity 1.0,
    color (1,1,1), padding 0. *)
Definition example_light : DirectionalLightData_value :=
  {| direction := Float3 (float32_of_Z 0) (float32_of_Z (-1)) (float32_of_Z 0);
     intensity := float32_of_Z 1;
     color := Float3 (float32_of_Z 1) (float32_of_Z 1) (float32_of_Z 1);
     padding := float32_of_Z 0 |}.

(** The expected buffer, computed by hand.  1.0 is 0x3F800000 and -1.0 is
    0xBF800000, written least significant byte first; 0.0 and every byte
    that no field covers are zero bytes. *)
Definition zero_bytes (n : nat) : list Z := repeat 0 n.
Definition one_bytes : list Z := [0; 0; 0x80; 0x3F].
Definition minus_one_bytes : list Z := [0; 0; 0x80; 0xBF].

Definition expected_light_bytes : list Z :=
  zero_bytes 4 ++ minus_one_bytes ++ zero_bytes 4   (* direction, bytes 0-11 *)
    ++ zero_bytes 4                                 (* unused lane, 12-15 *)
    ++ one_bytes                                    (* intensity, 16-19 *)
    ++ zero_bytes 12                                (* gap, 20-31 *)
    ++ one_bytes ++ one_bytes ++ one_bytes          (* color, 32-43 *)
    ++ zero_bytes 4                                 (* unused lane, 44-47 *)
    ++ zero_bytes 4                                 (* padding, 48-51 *)
    ++ zero_bytes 12.                               (* tail, 52-63 *)

(** ** Byte ranges, typed offsets and enumerator slots *)

(** The bytes every field occupies: its name with its first offset and the
    offset one past its last byte, in declaration order. *)
Fixpoint ranges_from (l : list field) (off : Z) : list (string * (Z * Z)) :=
  match l with
  | [] => []
  | f :: l' =>
      let o := align_up off (alignof (fty f)) in
      (fname f, (o, o + sizeof (fty f))) :: ranges_from l' (o + sizeof (fty f))
  end.

Definition field_ranges (t : ctype) : list (string * (Z * Z)) :=
  ranges_from (fields_of t) 0.

(** Ranges that follow one another between [lo] and [hi], none of them
    empty. *)
Fixpoint chained (lo : Z) (rs : list (string * (Z * Z))) (hi : Z) : Prop :=
  match rs with
  | [] => lo <= hi
  | (_, (a, b)) :: rs' => lo <= a /\ a < b /\ chained b rs' hi
  end.

(** What a reader of the raw bytes sees of a structure: the type of every
    field with its offset, the names forgotten. *)
Definition typed_offsets (t : ctype) : list (ctype * Z) :=
  combine (map fty (fields_of t)) (map snd (field_offsets t)).

(** An enumerator value stored in a signed backing type of [bits] bits
    (32 for the shader compiler's int32_t, the host's NSInteger width
    otherwise). *)
Definition to_signed (bits v : Z) : Z :=
  (v + 2 ^ (bits - 1)) mod 2 ^ bits - 2 ^ (bits - 1).

Definition all_enumerators : enumeration :=
  (BufferIndex ++ VertexAttribute ++ TextureIndex ++ SamplerIndex)%list.

(** The enumerators that introduce a value not among [seen], and those that
    repeat a value declared before them. *)
Fixpoint first_declared (seen : list Z) (e : enumeration) : enumeration :=
  match e with
  | [] => []
  | (n, v) :: e' =>
      if existsb (Z.eqb v) seen then first_declared seen e'
      else (n, v) :: first_declared (v :: seen) e'
  end.

Fixpoint redeclared (seen : list Z) (e : enumeration) : enumeration :=
  match e with
  | [] => []
  | (n, v) :: e' =>
      if existsb (Z.eqb v) seen then (n, v) :: redeclared seen e'
      else redeclared (v :: seen) e'
  end.


(** LightingData as the header declares it, with the three capacity macros
    it uses left as parameters. *)
Definition LightingData_with (max_point max_spot max_cascade : Z) : ctype :=
  Tstruct "LightingData"
    [ fld Tsimd_float3 "ambientColor";
      fld Tfloat "padding0";
      fld Tsimd_float3 "cameraPosition";
      fld Tfloat "padding1";
      fld DirectionalLightData "directionalLight";
      fld Tint "pointLightCount";
      fld Tint "spotLightCount";
      fld Tsimd_float2 "padding2";
      fld (Tarray PointLightData max_point) "pointLights";
      fld (Tarray SpotLightData max_spot) "spotLights";
      fld Tsimd_float4 "cascadeDistances";
      fld (Tarray Tsimd_float4x4 max_cascade) "shadowMatrices" ].

(** * Properties of the layout rules *)

Lemma alignof_struct (n : string) (fs : list field) :
  alignof (Tstruct n fs) = max_align fs.
Proof. reflexivity. Qed.

Lemma sizeof_struct (n : string) (fs : list field) :
  sizeof (Tstruct n fs) = align_up (place fs 0) (max_align fs).
Proof. reflexivity. Qed.

(** The alignments that occur: 1 (an empty structure), 4, 8 and 16. *)
Definition small_align (a : Z) : Prop := a = 1 \/ a = 4 \/ a = 8 \/ a = 16.

Lemma max_align_small (fs : list field) :
  Forall (fun f => small_align (alignof (fty f))) fs -> small_align (max_align fs).
Proof.
  induction 1 as [|f fs Hf _ IH]; simpl.
  - now left.
  - unfold small_align in *. lia.
Qed.

Lemma alignof_small (t : ctype) : small_align (alignof t).
Proof.
  induction t using ctype_fields_ind; try (unfold small_align; simpl; lia).
  - exact IHt.
  - rewrite alignof_struct. now apply max_align_small.
Qed.

Lemma alignof_pos (t : ctype) : 0 < alignof t.
Proof. destruct (alignof_small t) as [H|[H|[H|H]]]; lia. Qed.

Lemma alignof_divides_16 (t : ctype) : (alignof t | 16).
Proof.
  destruct (alignof_small t) as [H|[H|[H|H]]]; rewrite H.
  - now exists 16.
  - now exists 4.
  - now exists 2.
  - now exists 1.
Qed.

Lemma max_align_ge (fs : list field) (f : field) :
  In f fs -> alignof (fty f) <= max_align fs.
Proof.
  induction fs as [|g fs IH]; simpl; [tauto|].
  intros [->|H]; [|specialize (IH H)]; lia.
Qed.

Lemma align_up_mod (n a : Z) : 0 < a -> align_up n a mod a = 0.
Proof. intros Ha. unfold align_up. now apply Z.mod_mul; lia. Qed.

Lemma align_up_bounds (n a : Z) : 0 < a -> n <= align_up n a < n + a.
Proof.
  intros Ha. unfold align_up.
  pose proof (Z.div_mod (n + a - 1) a ltac:(lia)) as E.
  pose proof (Z.mod_pos_bound (n + a - 1) a Ha) as B.
  nia.
Qed.

Lemma align_up_id (n a : Z) : 0 < a -> n mod a = 0 -> align_up n a = n.
Proof.
  intros Ha Hn. unfold align_up.
  apply Z.mod_divide in Hn; [|lia]. destruct Hn as [k ->].
  replace (k * a + a - 1) with ((a - 1) + k * a) by lia.
  rewrite Z.div_add by lia. rewrite Z.div_small by lia. lia.
Qed.

(** A structure's size is a multiple of its alignment. *)
Lemma sizeof_struct_aligned (n : string) (fs : list field) :
  sizeof (Tstruct n fs) mod alignof (Tstruct n fs) = 0.
Proof.
  rewrite sizeof_struct, alignof_struct. apply align_up_mod.
  rewrite <- (alignof_struct n). apply alignof_pos.
Qed.

(** A structure with a 16-byte aligned field has a size that is a multiple
    of 16, whatever its other fields are. *)
Lemma sizeof_struct_mod16 (n : string) (fs : list field) (f : field) :
  In f fs -> alignof (fty f) = 16 -> sizeof (Tstruct n fs) mod 16 = 0.
Proof.
  intros Hin H16.
  pose proof (max_align_ge fs f Hin) as Hge.
  pose proof (alignof_small (Tstruct n fs)) as Hs.
  pose proof (sizeof_struct_aligned n fs) as Hm.
  rewrite alignof_struct in Hs, Hm.
  assert (max_align fs = 16) as E by (unfold small_align in Hs; lia).
  now rewrite E in Hm.
Qed.

(** Laying a field list out never moves backwards, and every field starts
    at a multiple of its alignment. *)
Lemma offsets_from_aligned (l : list field) (off : Z) :
  Forall2 (fun f p => fname f = fst p /\ snd p mod alignof (fty f) = 0)
    l (offsets_from l off).
Proof.
  revert off. induction l as [|f l IH]; intros off; simpl; constructor.
  - split; [reflexivity|]. simpl. apply align_up_mod, alignof_pos.
  - apply IH.
Qed.

(** The end of a laid-out field list is its start, plus the declared sizes,
    plus the gaps skipped for alignment. *)
Lemma place_decomposition (l : list field) (off : Z) :
  place l off = off + sum_sizes l + gaps_from l off.
Proof.
  revert off. induction l as [|f l IH]; intros off; simpl.
  - lia.
  - rewrite IH. fold (sum_sizes l). lia.
Qed.

Lemma gaps_from_nonneg (l : list field) (off : Z) : 0 <= gaps_from l off.
Proof.
  revert off. induction l as [|f l IH]; intros off; simpl; [lia|].
  pose proof (align_up_bounds off _ (alignof_pos (fty f))).
  specialize (IH (align_up off (alignof (fty f)) + sizeof (fty f))). lia.
Qed.

(** The size of a structure is what it declares plus what the layout adds. *)
Lemma sizeof_decomposition (n : string) (fs : list field) :
  let t := Tstruct n fs in
  sizeof t = declared_size t + implicit_padding t /\ 0 <= implicit_padding t.
Proof.
  cbv zeta. unfold implicit_padding, tail_padding, internal_padding, declared_size.
  cbn [fields_of]. rewrite (place_decomposition fs 0). split; [lia|].
  pose proof (gaps_from_nonneg fs 0).
  rewrite sizeof_struct.
  pose proof (align_up_bounds (place fs 0) (max_align fs)
                (alignof_pos (Tstruct n fs))).
  rewrite (place_decomposition fs 0) in *. lia.
Qed.

(** Little-endian bytes read back to the number they were cut from. *)
Lemma of_le_bytes_le_bytes (n : nat) (z : Z) :
  of_le_bytes (le_bytes n z) = z mod 256 ^ Z.of_nat n.
Proof.
  revert z. induction n as [|n IH]; intros z.
  - simpl. now rewrite Z.mod_1_r.
  - cbn [le_bytes of_le_bytes]. rewrite IH.
    rewrite Nat2Z.inj_succ, Z.pow_succ_r by lia.
    rewrite Z.rem_mul_r by lia. lia.
Qed.

Lemma length_le_bytes (n : nat) (z : Z) : List.length (le_bytes n z) = n.
Proof. revert z; induction n; intros z; simpl; [reflexivity|now rewrite IHn]. Qed.

Lemma length_write_at (buf bs : list Z) (off : nat) :
  List.length (write_at buf off bs) = List.length buf.
Proof.
  revert off bs. induction buf as [|b buf IH]; intros off bs; [reflexivity|].
  destruct off; simpl.
  - destruct bs; simpl; [reflexivity|now rewrite IH].
  - now rewrite IH.
Qed.

(** Whatever the light, its serialisation has the size of the structure and
    each field reads back, at its offset, as its encoding. *)
Lemma serialize_DirectionalLightData_fields (v : DirectionalLightData_value) :
  let buf := serialize_DirectionalLightData v in
  Z.of_nat (List.length buf) = sizeof DirectionalLightData /\
  load buf 0 12 = encode_float3 (direction v) /\
  load buf 16 4 = encode_float32 (intensity v) /\
  load buf 32 12 = encode_float3 (color v) /\
  load buf 48 4 = encode_float32 (padding v).
Proof. cbv zeta. repeat split; reflexivity. Qed.

(** An index below the declared length addresses an element that lies
    inside the array's extent. *)
Lemma elem_offset_within (t elt : ctype) (n : string) (len base i : Z) :
  field_type t n = Some (Tarray elt len) ->
  offsetof t n = Some base ->
  0 <= sizeof elt ->
  0 <= i < len ->
  index_in_bounds t n i = true /\
  exists off, elem_offset t n i = Some off /\
    base <= off /\ off + sizeof elt <= base + sizeof (Tarray elt len).
Proof.
  intros Hty Hoff Hsz Hi. unfold index_in_bounds, array_length, elem_offset.
  rewrite Hty, Hoff. split.
  - apply andb_true_intro. split; [apply Z.leb_le|apply Z.ltb_lt]; lia.
  - eexists. split; [reflexivity|]. cbn [sizeof]. nia.
Qed.

(** An index at or past the declared length is out of bounds. *)
Lemma index_past_length (t elt : ctype) (n : string) (len i : Z) :
  field_type t n = Some (Tarray elt len) ->
  len <= i -> index_in_bounds t n i = false.
Proof.
  intros Hty Hi. unfold index_in_bounds, array_length. rewrite Hty.
  apply andb_false_intro2. apply Z.ltb_ge. exact Hi.
Qed.

(** Every enumerator fits the 32-bit backing type of the shader compiler,
    so the host's wider backing type holds the same values. *)
Lemma enumerators_fit_int32 :
  Forall (fun p => in_int32 (snd p) = true)
    (BufferIndex ++ VertexAttribute ++ TextureIndex ++ SamplerIndex).
Proof. repeat constructor. Qed.

(** * The claims *)

#[local] Ltac first_field_16 :=
  eapply sizeof_struct_mod16; [left; reflexivity | reflexivity].

(** C1: every structure of the header (VertexIn, Uniforms,
    DirectionalLightData, PointLightData, SpotLightData, LightingData,
    MaterialData, ShadowUniforms, PointShadowUniforms, Light, Material) has,
    under the default layout, a total size that is a multiple of 16 bytes;
    the sizes are 80, 192, 64, 64, 112, 1824, 64, 96, 96, 64 and 32. *)
Theorem C1_struct_sizes_multiple_of_16 :
  Forall (fun t => sizeof t mod 16 = 0) all_structs /\
  map sizeof all_structs = [80; 192; 64; 64; 112; 1824; 64; 96; 96; 64; 32].
Proof.
  split; [|reflexivity].
  unfold all_structs. repeat (apply Forall_cons; [first_field_16|]).
  apply Forall_nil.
Qed.

(** C2, as the specification states it, fails: Light declares no padding
    field, its fields sum to 60 bytes, and it reaches 64 bytes by the four
    bytes the compiler adds after spotAngle.  VertexIn has no padding field
    either, and its fields sum to no multiple of 16 whether a
    three-component vector is counted as 16 bytes (72) or as 12 (60). *)
Lemma C2_Light_relies_on_tail_padding :
  In Light all_structs /\
  padding_fields Light = [] /\ natural_size Light = 60 /\
  declared_size Light = 60 /\ sizeof Light = 64 /\
  ~ explicitly_padded Light /\ tail_padding_only Light /\
  (padding_fields VertexIn = [] /\ natural_size VertexIn = 72 /\
   packed_size VertexIn = 60) /\
  ~ explicit_padding_rule.
Proof.
  assert (~ explicitly_padded Light) as HL.
  { intros H. destruct H as [H _]; [discriminate|]. now apply H. }
  repeat split; try reflexivity; try exact HL.
  - unfold all_structs. simpl. tauto.
  - intros H. unfold explicit_padding_rule in H.
    rewrite Forall_forall in H. apply HL.
    apply (H Light). unfold all_structs. simpl. tauto.
Qed.

(** C2 (amended): every structure reaches a size that is a multiple of 16
    through its declared fields together with the padding the layout adds.
    Explicit padding fields are declared by DirectionalLightData,
    SpotLightData, LightingData, MaterialData and ShadowUniforms only; the
    structures VertexIn, PointLightData, PointShadowUniforms and Light
    declare none although their fields (72, 40, 84 and 60 bytes) do not sum
    to a multiple of 16, and reach 80, 64, 96 and 64 bytes by the 8, 24, 12
    and 4 bytes the layout adds; in Light and PointShadowUniforms these are
    tail padding alone, with no gap between the fields. *)
Theorem C2_padding_explicit_and_implicit :
  Forall (fun t => sizeof t mod 16 = 0 /\
                   sizeof t = declared_size t + implicit_padding t /\
                   0 <= implicit_padding t) all_structs /\
  map struct_name (filter has_padding all_structs) =
    [ "DirectionalLightData"; "SpotLightData"; "LightingData";
      "MaterialData"; "ShadowUniforms" ] /\
  map (fun t => (struct_name t, declared_size t, implicit_padding t))
      (filter (fun t => negb (has_padding t) &&
                        negb (declared_size t mod 16 =? 0)) all_structs) =
    [ ("VertexIn", 72, 8); ("PointLightData", 40, 24);
      ("PointShadowUniforms", 84, 12); ("Light", 60, 4) ] /\
  map (fun t => (struct_name t, internal_padding t, tail_padding t, sizeof t))
      (filter (fun t => negb (has_padding t) &&
                        negb (declared_size t mod 16 =? 0)) all_structs) =
    [ ("VertexIn", 8, 0, 80); ("PointLightData", 12, 12, 64);
      ("PointShadowUniforms", 0, 12, 96); ("Light", 0, 4, 64) ] /\
  tail_padding_only Light /\
  tail_padding_only PointShadowUniforms /\
  filter (fun t => negb (has_padding t) && (internal_padding t =? 0)
                   && (0 <? tail_padding t)) all_structs =
    [ PointShadowUniforms; Light ].
Proof.
  split; [|repeat split; reflexivity].
  unfold all_structs.
  repeat (apply Forall_cons;
          [split; [first_field_16|apply sizeof_decomposition]|]).
  apply Forall_nil.
Qed.

(** C3: BufferIndexLights equals BufferIndexLightingData and
    BufferIndexMaterial equals BufferIndexMaterialData; the legacy names are
    aliases of the modern ones, with the values 2 and 3. *)
Theorem C3_buffer_index_aliases :
  BufferIndexLights = BufferIndexLightingData /\
  BufferIndexMaterial = BufferIndexMaterialData /\
  BufferIndexLights = 2 /\ BufferIndexMaterial = 3 /\
  enum_value BufferIndex "BufferIndexLights" = Some 2 /\
  enum_value BufferIndex "BufferIndexLightingData" = Some 2 /\
  enum_value BufferIndex "BufferIndexMaterial" = Some 3 /\
  enum_value BufferIndex "BufferIndexMaterialData" = Some 3 /\
  aliases_of BufferIndex "BufferIndexLights" = ["BufferIndexLightingData"] /\
  aliases_of BufferIndex "BufferIndexMaterial" = ["BufferIndexMaterialData"].
Proof. repeat split. Qed.


(** C5: the attribute slots are position 0, normal 1, texCoord 2, color 3
    and tangent 4, and the annotations on the fields of VertexIn agree,
    field for field and in order, with the enumerators of VertexAttribute. *)
Theorem C5_vertex_attribute_slots :
  map (fun f => (fname f, fattr f)) (fields_of VertexIn) =
    [ ("position", Some 0); ("normal", Some 1); ("texCoords", Some 2);
      ("color", Some 3); ("tangent", Some 4) ] /\
  VertexAttribute =
    [ ("VertexAttributePosition", 0); ("VertexAttributeNormal", 1);
      ("VertexAttributeTexCoord", 2); ("VertexAttributeColor", 3);
      ("VertexAttributeTangent", 4) ] /\
  map fattr (fields_of VertexIn) =
    map (fun e => Some (snd e)) VertexAttribute.
Proof. repeat split. Qed.

(** C6: whenever pointLightCount and spotLightCount are between 0 and their
    capacity 8, every read of pointLights[i] with 0 <= i < pointLightCount
    and of spotLights[j] with 0 <= j < spotLightCount is inside the fixed
    arrays of LightingData: the index is below the declared length and the
    element's bytes lie between the start of its array and the start of the
    next field. *)
Theorem C6_light_reads_in_bounds (pointLightCount spotLightCount i j : Z) :
  0 <= pointLightCount <= MAX_POINT_LIGHTS ->
  0 <= spotLightCount <= MAX_SPOT_LIGHTS ->
  0 <= i < pointLightCount ->
  0 <= j < spotLightCount ->
  (index_in_bounds LightingData "pointLights" i = true /\
   exists off, elem_offset LightingData "pointLights" i = Some off /\
     144 <= off /\ off + sizeof PointLightData <= 656) /\
  (index_in_bounds LightingData "spotLights" j = true /\
   exists off, elem_offset LightingData "spotLights" j = Some off /\
     656 <= off /\ off + sizeof SpotLightData <= 1552) /\
  offsetof LightingData "pointLights" = Some 144 /\
  offsetof LightingData "spotLights" = Some 656 /\
  offsetof LightingData "cascadeDistances" = Some 1552 /\
  sizeof LightingData = 1824.
Proof.
  intros Hp Hs Hi Hj. unfold MAX_POINT_LIGHTS in Hp. unfold MAX_SPOT_LIGHTS in Hs.
  repeat split; try reflexivity.
  - apply (elem_offset_within LightingData PointLightData "pointLights"
             MAX_POINT_LIGHTS 144 i); try reflexivity.
    + discriminate.
    + unfold MAX_POINT_LIGHTS. lia.
  - destruct (elem_offset_within LightingData PointLightData "pointLights"
                MAX_POINT_LIGHTS 144 i) as [_ [off [E [L U]]]];
      try reflexivity.
    + discriminate.
    + unfold MAX_POINT_LIGHTS. lia.
    + exists off. repeat split; [exact E|exact L|].
      change (sizeof (Tarray PointLightData MAX_POINT_LIGHTS)) with 512 in U.
      lia.
  - apply (elem_offset_within LightingData SpotLightData "spotLights"
             MAX_SPOT_LIGHTS 656 j); try reflexivity.
    + discriminate.
    + unfold MAX_SPOT_LIGHTS. lia.
  - destruct (elem_offset_within LightingData SpotLightData "spotLights"
                MAX_SPOT_LIGHTS 656 j) as [_ [off [E [L U]]]];
      try reflexivity.
    + discriminate.
    + unfold MAX_SPOT_LIGHTS. lia.
    + exists off. repeat split; [exact E|exact L|].
      change (sizeof (Tarray SpotLightData MAX_SPOT_LIGHTS)) with 896 in U.
      lia.
Qed.

(** C6 at full capacity: both counts are 8 and the last slot, index 7, is
    read from each array. *)
Lemma C6_light_reads_in_bounds_at_capacity :
  (0 <= 8 <= MAX_POINT_LIGHTS) /\ (0 <= 8 <= MAX_SPOT_LIGHTS) /\
  (index_in_bounds LightingData "pointLights" 7 = true /\
   exists off, elem_offset LightingData "pointLights" 7 = Some off /\
     144 <= off /\ off + sizeof PointLightData <= 656) /\
  (index_in_bounds LightingData "spotLights" 7 = true /\
   exists off, elem_offset LightingData "spotLights" 7 = Some off /\
     656 <= off /\ off + sizeof SpotLightData <= 1552).
Proof.
  assert (0 <= 8 <= MAX_POINT_LIGHTS) as Hp by (unfold MAX_POINT_LIGHTS; lia).
  assert (0 <= 8 <= MAX_SPOT_LIGHTS) as Hs by (unfold MAX_SPOT_LIGHTS; lia).
  split; [exact Hp|]. split; [exact Hs|].
  destruct (C6_light_reads_in_bounds 8 8 7 7 Hp Hs ltac:(lia) ltac:(lia))
    as [H1 [H2 _]].
  split; [exact H1|exact H2].
Defined.

(** C7: the light with direction (0,-1,0), intensity 1.0, color (1,1,1) and
    padding 0 serialises to the expected 64 bytes: each float in
    little-endian binary32 at the offset its field has in the declaration
    (direction at 0, intensity at 16, color at 32, padding at 48), and every
    other byte zero. *)
Theorem C7_example_light_bytes :
  serialize_DirectionalLightData example_light = expected_light_bytes /\
  field_offsets DirectionalLightData =
    [ ("direction", 0); ("intensity", 16); ("color", 32); ("padding", 48) ] /\
  Z.of_nat (List.length expected_light_bytes) = sizeof DirectionalLightData /\
  load expected_light_bytes 0 12 = encode_float3 (direction example_light) /\
  load expected_light_bytes 16 4 = encode_float32 (intensity example_light) /\
  load expected_light_bytes 32 12 = encode_float3 (color example_light) /\
  load expected_light_bytes 48 4 = encode_float32 (padding example_light) /\
  load expected_light_bytes 12 4 = [0; 0; 0; 0] /\
  load expected_light_bytes 20 12 = repeat 0 12 /\
  load expected_light_bytes 44 4 = [0; 0; 0; 0] /\
  load expected_light_bytes 52 12 = repeat 0 12.
Proof. repeat split; vm_compute; reflexivity. Qed.

(** C8: Uniforms is exactly the three 4x4 matrices modelMatrix, viewMatrix
    and projectionMatrix in this order, with no padding field and no
    implicit padding; its size is 3 * 64 = 192 bytes and the matrices start
    at the offsets 0, 64 and 128. *)
Theorem C8_uniforms_layout :
  map (fun f => (fname f, fty f)) (fields_of Uniforms) =
    [ ("modelMatrix", Tsimd_float4x4); ("viewMatrix", Tsimd_float4x4);
      ("projectionMatrix", Tsimd_float4x4) ] /\
  padding_fields Uniforms = [] /\
  internal_padding Uniforms = 0 /\ tail_padding Uniforms = 0 /\
  alignof Tsimd_float4x4 = 16 /\ sizeof Tsimd_float4x4 = 64 /\
  sizeof Uniforms = 3 * 64 /\ sizeof Uniforms = 192 /\
  field_offsets Uniforms =
    [ ("modelMatrix", 0); ("viewMatrix", 64); ("projectionMatrix", 128) ].
Proof. repeat split. Qed.

(** C9: in MaterialData, baseColor is at offset 0, the scalars metallic,
    roughness, ao and padding0 fill the bytes 16 to 31, and emissive starts
    at offset 32, a multiple of its 16-byte alignment; the declared fields
    before emissive end exactly there, and would end at 28 without
    padding0. *)
Theorem C9_material_emissive_aligned :
  field_offsets MaterialData =
    [ ("baseColor", 0); ("metallic", 16); ("roughness", 20); ("ao", 24);
      ("padding0", 28); ("emissive", 32); ("padding1", 48) ] /\
  offsetof MaterialData "emissive" = Some 32 /\
  field_type MaterialData "emissive" = Some Tsimd_float3 /\
  alignof Tsimd_float3 = 16 /\ 32 mod alignof Tsimd_float3 = 0 /\
  place (firstn 5 (fields_of MaterialData)) 0 = 32 /\
  map fname (firstn 5 (fields_of MaterialData)) =
    [ "baseColor"; "metallic"; "roughness"; "ao"; "padding0" ] /\
  place (firstn 4 (fields_of MaterialData)) 0 = 28 /\
  internal_padding MaterialData = 0.
Proof. repeat split. Qed.

(** C10: in TextureIndex, TextureIndexMetallic equals
    TextureIndexMetallicRoughness (2), TextureIndexRoughness equals
    TextureIndexAO (3) and TextureIndexEmission equals
    TextureIndexShadowMap0 (5); TextureIndexEmission differs from
    TextureIndexEmissive (4), so the legacy emission slot is the slot of
    cascade shadow map 0. *)
Theorem C10_texture_index_aliases :
  TextureIndexMetallic = TextureIndexMetallicRoughness /\
  TextureIndexMetallic = 2 /\
  TextureIndexRoughness = TextureIndexAO /\ TextureIndexRoughness = 3 /\
  TextureIndexEmission = TextureIndexShadowMap0 /\ TextureIndexEmission = 5 /\
  TextureIndexEmissive = 4 /\ TextureIndexEmission <> TextureIndexEmissive /\
  aliases_of TextureIndex "TextureIndexMetallic" =
    ["TextureIndexMetallicRoughness"] /\
  aliases_of TextureIndex "TextureIndexRoughness" = ["TextureIndexAO"] /\
  aliases_of TextureIndex "TextureIndexEmission" = ["TextureIndexShadowMap0"] /\
  aliases_of TextureIndex "TextureIndexEmissive" = [].
Proof. repeat split; discriminate. Qed.

(** * Further properties of the declarations *)

(** ** Fields never overlap *)

Lemma chained_weaken (lo hi hi' : Z) (rs : list (string * (Z * Z))) :
  chained lo rs hi -> hi <= hi' -> chained lo rs hi'.
Proof.
  revert lo. induction rs as [|[n [a b]] rs IH]; intros lo H Hle; simpl in *.
  - lia.
  - destruct H as [H1 [H2 H3]]. repeat split; try assumption. now apply IH.
Qed.

Lemma chained_le (lo hi : Z) (rs : list (string * (Z * Z))) :
  chained lo rs hi -> lo <= hi.
Proof.
  revert lo. induction rs as [|[n [a b]] rs IH]; intros lo H; simpl in *.
  - exact H.
  - destruct H as [H1 [H2 H3]]. specialize (IH _ H3). lia.
Qed.

Lemma chained_nth (lo hi : Z) (rs : list (string * (Z * Z))) (i : nat)
    (n : string) (a b : Z) :
  chained lo rs hi -> nth_error rs i = Some (n, (a, b)) ->
  lo <= a /\ a < b /\ chained b (skipn (S i) rs) hi.
Proof.
  revert lo i. induction rs as [|[m [c d]] rs IH]; intros lo i H Hn.
  - destruct i; discriminate.
  - simpl in H. destruct H as [H1 [H2 H3]]. destruct i as [|i].
    + simpl in Hn. injection Hn as -> -> ->. now repeat split.
    + simpl in Hn. destruct (IH _ _ H3 Hn) as [Ha [Hb Hc]].
      repeat split; [lia|assumption|exact Hc].
Qed.

(** In a chain, an earlier range ends before a later one starts. *)
Lemma chained_order (lo hi : Z) (rs : list (string * (Z * Z))) (i j : nat)
    (n1 n2 : string) (a1 b1 a2 b2 : Z) :
  chained lo rs hi -> (i < j)%nat ->
  nth_error rs i = Some (n1, (a1, b1)) ->
  nth_error rs j = Some (n2, (a2, b2)) ->
  lo <= a1 /\ a1 < b1 /\ b1 <= a2 /\ a2 < b2 /\ b2 <= hi.
Proof.
  intros H Hij Hi Hj.
  destruct (chained_nth _ _ _ _ _ _ _ H Hi) as [L1 [L2 Hrest]].
  assert (nth_error (skipn (S i) rs) (j - S i) = Some (n2, (a2, b2))) as Hj'.
  { rewrite nth_error_skipn. replace (S i + (j - S i))%nat with j by lia.
    exact Hj. }
  destruct (chained_nth _ _ _ _ _ _ _ Hrest Hj') as [L3 [L4 Hrest']].
  pose proof (chained_le _ _ _ Hrest'). lia.
Qed.

Lemma ranges_from_chained (l : list field) (off : Z) :
  Forall (fun f => 0 < sizeof (fty f)) l ->
  chained off (ranges_from l off) (place l off).
Proof.
  intros H. revert off. induction H as [|f l Hf _ IH]; intros off; simpl.
  - lia.
  - pose proof (align_up_bounds off _ (alignof_pos (fty f))).
    repeat split; [lia|lia|apply IH].
Qed.

(** The fields of a structure whose fields all have a positive size lie one
    after the other between offset 0 and the size of the structure. *)
Lemma struct_fields_chained (n : string) (fs : list field) :
  Forall (fun f => 0 < sizeof (fty f)) fs ->
  chained 0 (field_ranges (Tstruct n fs)) (sizeof (Tstruct n fs)).
Proof.
  intros H. apply chained_weaken with (hi := place fs 0).
  - apply ranges_from_chained, H.
  - rewrite sizeof_struct.
    apply (align_up_bounds (place fs 0) (max_align fs)).
    rewrite <- (alignof_struct n). apply alignof_pos.
Qed.

#[local] Ltac positive_sizes :=
  repeat (apply Forall_cons; [reflexivity|]); apply Forall_nil.

Lemma header_structs_chained :
  Forall (fun t => chained 0 (field_ranges t) (sizeof t)) all_structs.
Proof.
  unfold all_structs.
  repeat (apply Forall_cons;
          [apply struct_fields_chained; positive_sizes|]).
  apply Forall_nil.
Qed.

(** X1: in every structure of the header, two different fields never share
    a byte: the field declared first ends at or before the offset where the
    later one starts, no field is empty, and every field lies between
    offset 0 and the size of its structure. *)
Theorem fields_ordered_and_disjoint (t : ctype) (i j : nat)
    (n1 n2 : string) (a1 b1 a2 b2 : Z) :
  In t all_structs -> (i < j)%nat ->
  nth_error (field_ranges t) i = Some (n1, (a1, b1)) ->
  nth_error (field_ranges t) j = Some (n2, (a2, b2)) ->
  0 <= a1 /\ a1 < b1 /\ b1 <= a2 /\ a2 < b2 /\ b2 <= sizeof t.
Proof.
  intros Hin Hij Hi Hj.
  pose proof header_structs_chained as H. rewrite Forall_forall in H.
  exact (chained_order _ _ _ _ _ _ _ _ _ _ _ (H t Hin) Hij Hi Hj).
Qed.

(** X1 at SpotLightData: padding1 (bytes 88 to 91) and padding2 (bytes 96
    to 103). *)
Lemma fields_ordered_and_disjoint_SpotLightData :
  In SpotLightData all_structs /\
  nth_error (field_ranges SpotLightData) 7 = Some ("padding1", (88, 92)) /\
  nth_error (field_ranges SpotLightData) 8 = Some ("padding2", (96, 104)) /\
  (0 <= 88 /\ 88 < 92 /\ 92 <= 96 /\ 96 < 104 /\ 104 <= sizeof SpotLightData).
Proof.
  assert (In SpotLightData all_structs) as Hin
    by (unfold all_structs; simpl; tauto).
  repeat split; try exact Hin; try reflexivity;
    apply (fields_ordered_and_disjoint SpotLightData 7 8 "padding1" "padding2"
             88 92 96 104 Hin); try reflexivity; lia.
Defined.

(** ** The arrays of LightingData *)

Lemma assoc_In {A : Type} (k : string) (v : A) (l : list (string * A)) :
  assoc k l = Some v -> In (k, v) l.
Proof.
  induction l as [|[k' v'] l IH]; simpl; [discriminate|].
  destruct (String.eqb k k') eqn:E.
  - intros H. injection H as ->. apply String.eqb_eq in E. subst. now left.
  - intros H. right. now apply IH.
Qed.

(** The array fields of LightingData are pointLights, spotLights and
    shadowMatrices, at the offsets 144, 656 and 1568. *)
Lemma LightingData_arrays (n : string) (elt : ctype) (len base : Z) :
  field_type LightingData n = Some (Tarray elt len) ->
  offsetof LightingData n = Some base ->
  (n = "pointLights" /\ elt = PointLightData /\
   len = MAX_POINT_LIGHTS /\ base = 144) \/
  (n = "spotLights" /\ elt = SpotLightData /\
   len = MAX_SPOT_LIGHTS /\ base = 656) \/
  (n = "shadowMatrices" /\ elt = Tsimd_float4x4 /\
   len = MAX_CASCADE_COUNT /\ base = 1568).
Proof.
  intros Hty Hoff. unfold field_type in Hty. apply assoc_In in Hty.
  simpl in Hty.
  repeat (destruct Hty as [Hty|Hty]; [try (inversion Hty; fail)|]);
    try contradiction.
  - injection Hty as <- <- <-. left.
    vm_compute in Hoff. injection Hoff as <-. now repeat split.
  - injection Hty as <- <- <-. right; left.
    vm_compute in Hoff. injection Hoff as <-. now repeat split.
  - injection Hty as <- <- <-. right; right.
    vm_compute in Hoff. injection Hoff as <-. now repeat split.
Qed.

Lemma LightingData_array_facts (n : string) (elt : ctype) (len base : Z) :
  field_type LightingData n = Some (Tarray elt len) ->
  offsetof LightingData n = Some base ->
  base mod 16 = 0 /\ sizeof elt mod 16 = 0 /\ 0 < sizeof elt /\ 0 < len /\
  alignof elt = 16 /\ base + sizeof elt * len <= sizeof LightingData.
Proof.
  intros Hty Hoff.
  destruct (LightingData_arrays n elt len base Hty Hoff)
    as [[-> [-> [-> ->]]]|[[-> [-> [-> ->]]]|[-> [-> [-> ->]]]]];
    repeat split; try reflexivity; vm_compute; discriminate.
Qed.

Lemma mod16_add_mul (a s i : Z) :
  a mod 16 = 0 -> s mod 16 = 0 -> (a + s * i) mod 16 = 0.
Proof.
  intros Ha Hs. apply Z.mod_divide; [lia|].
  apply Z.mod_divide in Ha; [|lia]. apply Z.mod_divide in Hs; [|lia].
  apply Z.divide_add_r; [exact Ha|]. now apply Z.divide_mul_l.
Qed.

(** X2: in each array of LightingData (pointLights, spotLights,
    shadowMatrices), every element below the declared length starts at a
    multiple of 16 bytes, two different elements share no byte, and all of
    them lie inside the array, which lies inside LightingData. *)
Theorem array_elements_aligned_and_disjoint
    (n : string) (elt : ctype) (len base i j : Z) :
  field_type LightingData n = Some (Tarray elt len) ->
  offsetof LightingData n = Some base ->
  0 <= i -> i < j -> j < len ->
  exists oi oj,
    elem_offset LightingData n i = Some oi /\
    elem_offset LightingData n j = Some oj /\
    oi mod 16 = 0 /\ oj mod 16 = 0 /\
    base <= oi /\ oi + sizeof elt <= oj /\
    oj + sizeof elt <= base + sizeof (Tarray elt len) /\
    base + sizeof (Tarray elt len) <= sizeof LightingData.
Proof.
  intros Hty Hoff Hi Hij Hj.
  destruct (LightingData_array_facts n elt len base Hty Hoff)
    as [Hb [Hs [Hpos [_ [_ Hin]]]]].
  unfold elem_offset. rewrite Hty, Hoff.
  exists (base + sizeof elt * i), (base + sizeof elt * j).
  cbn [sizeof]. repeat split; try reflexivity;
    try (apply mod16_add_mul; assumption); try nia; try exact Hin.
Qed.

(** X2 at the first and the last spot light. *)
Lemma array_elements_aligned_and_disjoint_spotLights :
  exists oi oj,
    elem_offset LightingData "spotLights" 0 = Some oi /\
    elem_offset LightingData "spotLights" 7 = Some oj /\
    oi mod 16 = 0 /\ oj mod 16 = 0 /\
    656 <= oi /\ oi + sizeof SpotLightData <= oj /\
    oj + sizeof SpotLightData
      <= 656 + sizeof (Tarray SpotLightData MAX_SPOT_LIGHTS) /\
    656 + sizeof (Tarray SpotLightData MAX_SPOT_LIGHTS)
      <= sizeof LightingData.
Proof.
  apply (array_elements_aligned_and_disjoint "spotLights" SpotLightData
           MAX_SPOT_LIGHTS 656 0 7); try reflexivity; lia.
Defined.

Lemma LightingData_array_extent (n : string) (elt : ctype) (len base : Z) :
  field_type LightingData n = Some (Tarray elt len) ->
  offsetof LightingData n = Some base ->
  0 < sizeof elt <= 112 /\ 0 <= base <= 1568.
Proof.
  intros Hty Hoff.
  destruct (LightingData_arrays n elt len base Hty Hoff)
    as [[-> [-> [-> ->]]]|[[-> [-> [-> ->]]]|[-> [-> [-> ->]]]]];
    repeat split; try reflexivity; vm_compute; discriminate.
Qed.

(** X3: for each array of LightingData and every index that a 32-bit int
    can hold, an index below 0 or at or above the declared length is out of
    bounds, and the element at the offset computed for it shares no byte
    with the array: it ends at or before the array's first byte, or starts
    at or after the array's end.  That offset stays between -2^38 and 2^38.
    The first index past pointLights addresses spotLights[0]. *)
Theorem index_out_of_range_leaves_array
    (n : string) (elt : ctype) (len base i : Z) :
  field_type LightingData n = Some (Tarray elt len) ->
  offsetof LightingData n = Some base ->
  - 2 ^ 31 <= i < 2 ^ 31 ->
  i < 0 \/ len <= i ->
  index_in_bounds LightingData n i = false /\
  (exists off,
     elem_offset LightingData n i = Some off /\
     (off + sizeof elt <= base \/ base + sizeof (Tarray elt len) <= off) /\
     - 2 ^ 38 <= off < 2 ^ 38) /\
  elem_offset LightingData "pointLights" MAX_POINT_LIGHTS =
    elem_offset LightingData "spotLights" 0.
Proof.
  intros Hty Hoff Hint Hi.
  destruct (LightingData_array_extent n elt len base Hty Hoff)
    as [Hsz Hbase].
  split; [|split; [|reflexivity]].
  - unfold index_in_bounds, array_length. rewrite Hty.
    destruct Hi as [Hi|Hi].
    + apply andb_false_intro1. apply Z.leb_gt. exact Hi.
    + apply andb_false_intro2. apply Z.ltb_ge. exact Hi.
  - unfold elem_offset. rewrite Hty, Hoff. eexists. split; [reflexivity|].
    cbn [sizeof].
    change (2 ^ 31) with 2147483648 in Hint.
    change (2 ^ 38) with 274877906944.
    split; nia.
Qed.

(** X3 at pointLights[8]. *)
Lemma index_out_of_range_leaves_array_pointLights_8 :
  index_in_bounds LightingData "pointLights" 8 = false /\
  (exists off,
     elem_offset LightingData "pointLights" 8 = Some off /\
     (off + sizeof PointLightData <= 144 \/
      144 + sizeof (Tarray PointLightData MAX_POINT_LIGHTS) <= off) /\
     - 2 ^ 38 <= off < 2 ^ 38) /\
  elem_offset LightingData "pointLights" MAX_POINT_LIGHTS =
    elem_offset LightingData "spotLights" 0.
Proof.
  apply (index_out_of_range_leaves_array "pointLights" PointLightData
           MAX_POINT_LIGHTS 144 8);
    [reflexivity|reflexivity|lia|right; unfold MAX_POINT_LIGHTS; lia].
Defined.

(** A field found by name starts at a multiple of its own alignment. *)
Lemma assoc_offset_aligned (l : list field) (off : Z) (m : string)
    (o : Z) (ty : ctype) :
  assoc m (offsets_from l off) = Some o ->
  assoc m (map (fun f => (fname f, fty f)) l) = Some ty ->
  o mod alignof ty = 0.
Proof.
  revert off. induction l as [|f l IH]; intros off; simpl; [discriminate|].
  destruct (String.eqb m (fname f)).
  - intros Ho Ht. injection Ho as <-. injection Ht as <-.
    apply align_up_mod, alignof_pos.
  - apply IH.
Qed.

Lemma offsetof_aligned (t : ctype) (m : string) (o : Z) (ty : ctype) :
  offsetof t m = Some o -> field_type t m = Some ty -> o mod alignof ty = 0.
Proof. apply assoc_offset_aligned. Qed.

(** X4: every field of every in-bounds element of an array of LightingData
    (for instance pointLights[i].color) starts, counted from the start of
    LightingData, at a multiple of the alignment of its type. *)
Theorem light_element_fields_aligned
    (n : string) (elt : ctype) (len base i : Z)
    (m : string) (ty : ctype) (o : Z) :
  field_type LightingData n = Some (Tarray elt len) ->
  offsetof LightingData n = Some base ->
  0 <= i < len ->
  field_type elt m = Some ty ->
  offsetof elt m = Some o ->
  exists off,
    elem_offset LightingData n i = Some off /\
    (off + o) mod alignof ty = 0.
Proof.
  intros Hty Hoff Hi Hfty Hfo.
  destruct (LightingData_array_facts n elt len base Hty Hoff)
    as [Hb [Hs _]].
  unfold elem_offset. rewrite Hty, Hoff. eexists. split; [reflexivity|].
  pose proof (offsetof_aligned elt m o ty Hfo Hfty) as Ho.
  pose proof (mod16_add_mul base (sizeof elt) i Hb Hs) as H16.
  pose proof (alignof_pos ty) as Hp.
  apply Z.mod_divide; [lia|].
  apply Z.mod_divide in Ho; [|lia]. apply Z.mod_divide in H16; [|lia].
  apply Z.divide_add_r; [|exact Ho].
  apply Z.divide_trans with 16; [apply alignof_divides_16|exact H16].
Qed.

(** X4 at spotLights[3].color. *)
Lemma light_element_fields_aligned_spot_color :
  exists off,
    elem_offset LightingData "spotLights" 3 = Some off /\
    (off + 64) mod alignof Tsimd_float3 = 0.
Proof.
  apply (light_element_fields_aligned "spotLights" SpotLightData
           MAX_SPOT_LIGHTS 656 3 "color" Tsimd_float3 64);
    try reflexivity.
  unfold MAX_SPOT_LIGHTS. lia.
Defined.

(** ** The enumerations *)

Lemma to_signed_small (bits v : Z) :
  32 <= bits -> 0 <= v < 2 ^ 31 -> to_signed bits v = v.
Proof.
  intros Hb Hv. unfold to_signed.
  assert (2 ^ 31 <= 2 ^ (bits - 1)) as Hh
    by (apply Z.pow_le_mono_r; lia).
  assert (2 ^ bits = 2 * 2 ^ (bits - 1)) as E.
  { replace bits with (Z.succ (bits - 1)) at 1 by lia.
    apply Z.pow_succ_r. lia. }
  rewrite E, Z.mod_small; lia.
Qed.

(** X5: every enumerator of BufferIndex, VertexAttribute, TextureIndex and
    SamplerIndex keeps its value in a signed backing type of 32 bits or
    more, so the shader compiler (int32_t) and the host (NSInteger) read the
    same slot number from the same name. *)
Theorem enumerators_same_in_both_backing_types
    (bits : Z) (name : string) (v : Z) :
  32 <= bits -> In (name, v) all_enumerators ->
  to_signed bits v = v /\ to_signed 32 v = to_signed bits v.
Proof.
  intros Hb Hin.
  assert (0 <= v < 2 ^ 31) as Hv.
  { unfold all_enumerators in Hin. simpl in Hin.
    repeat (destruct Hin as [Hin|Hin];
            [injection Hin as _ <-; vm_compute; split; [discriminate|reflexivity]|]).
    contradiction. }
  rewrite (to_signed_small bits v Hb Hv).
  rewrite (to_signed_small 32 v ltac:(lia) Hv). now split.
Qed.

(** X5 for TextureIndexShadowMap3 on a 64-bit host. *)
Lemma enumerators_same_in_both_backing_types_host64 :
  to_signed 64 TextureIndexShadowMap3 = TextureIndexShadowMap3 /\
  to_signed 32 TextureIndexShadowMap3 = to_signed 64 TextureIndexShadowMap3.
Proof.
  apply (enumerators_same_in_both_backing_types 64
           "TextureIndexShadowMap3" TextureIndexShadowMap3); [lia|].
  unfold all_enumerators. simpl. tauto.
Defined.

(** X6: in each enumeration the values, in the order in which they are
    first declared, are 0, 1, 2, ... without a hole (5 buffer slots, 5
    vertex attributes, 9 texture slots, 2 samplers); the only enumerators
    that repeat a value are the five legacy names, and VertexAttribute and
    SamplerIndex have no alias at all. *)
Theorem enumeration_slots_dense :
  map snd (first_declared [] BufferIndex) = map Z.of_nat (seq 0 5) /\
  map snd (first_declared [] VertexAttribute) = map Z.of_nat (seq 0 5) /\
  map snd (first_declared [] TextureIndex) = map Z.of_nat (seq 0 9) /\
  map snd (first_declared [] SamplerIndex) = map Z.of_nat (seq 0 2) /\
  map fst (redeclared [] BufferIndex) =
    [ "BufferIndexLights"; "BufferIndexMaterial" ] /\
  map fst (redeclared [] VertexAttribute) = [] /\
  map fst (redeclared [] TextureIndex) =
    [ "TextureIndexMetallic"; "TextureIndexRoughness";
      "TextureIndexEmission" ] /\
  map fst (redeclared [] SamplerIndex) = [].
Proof. repeat split. Qed.



(** ** The legacy structures behind the aliased buffer slots *)

(** X8: the legacy names share their buffer slots with the modern
    structures, but only one pair agrees in layout.  Material has the field
    types and offsets of the first five fields of MaterialData (its emission
    falls on padding0) and is no larger, so the bytes of a MaterialData read
    as a Material; Light does not continue LightingData that way: its second
    field is a vector at offset 16 where LightingData has the float
    padding0. *)
Theorem legacy_layouts_behind_aliased_slots :
  BufferIndexMaterial = BufferIndexMaterialData /\
  typed_offsets Material =
    firstn (List.length (fields_of Material)) (typed_offsets MaterialData) /\
  sizeof Material <= sizeof MaterialData /\
  BufferIndexLights = BufferIndexLightingData /\
  typed_offsets Light <>
    firstn (List.length (fields_of Light)) (typed_offsets LightingData) /\
  nth_error (typed_offsets Light) 1 = Some (Tsimd_float3, 16) /\
  nth_error (typed_offsets LightingData) 1 = Some (Tfloat, 16).
Proof.
  repeat split; try reflexivity.
  - vm_compute. discriminate.
  - intros H. apply (f_equal (fun l => nth_error l 1)) in H.
    vm_compute in H. discriminate.
Qed.

(** ** LightingData as a function of the capacity constants *)

Lemma place_app (l1 l2 : list field) (off : Z) :
  place (l1 ++ l2)%list off = place l2 (place l1 off).
Proof.
  revert off. induction l1 as [|f l1 IH]; intros off; simpl.
  - reflexivity.
  - apply IH.
Qed.

(** Appending fields to a list leaves the offsets of the earlier fields as
    they were. *)
Lemma offsets_from_app (l1 l2 : list field) (off : Z) :
  offsets_from (l1 ++ l2)%list off =
  (offsets_from l1 off ++ offsets_from l2 (place l1 off))%list.
Proof.
  revert off. induction l1 as [|f l1 IH]; intros off; simpl.
  - reflexivity.
  - f_equal. apply IH.
Qed.

Lemma align_up_mul16 (k : Z) : align_up (16 * k) 16 = 16 * k.
Proof.
  apply align_up_id; [lia|]. rewrite Z.mul_comm. apply Z.mod_mul. lia.
Qed.

#[local] Ltac light_sizes :=
  change (alignof (Tarray PointLightData ?n)) with 16;
  change (alignof (Tarray SpotLightData ?n)) with 16;
  change (alignof (Tarray Tsimd_float4x4 ?n)) with 16;
  change (alignof Tsimd_float4) with 16;
  change (sizeof Tsimd_float4) with 16;
  change (sizeof (Tarray PointLightData ?n)) with (64 * n);
  change (sizeof (Tarray SpotLightData ?n)) with (112 * n);
  change (sizeof (Tarray Tsimd_float4x4 ?n)) with (64 * n).

#[local] Ltac by_align16 k :=
  match goal with
  | |- context [align_up ?x 16] =>
      lazymatch x with
      | context [align_up _ _] => fail
      | _ => replace x with (16 * k) by lia; rewrite (align_up_mul16 k)
      end
  end.

Lemma LightingData_with_size (np ns nc : Z) :
  sizeof (LightingData_with np ns nc) = 160 + 64 * np + 112 * ns + 64 * nc.
Proof.
  unfold LightingData_with. rewrite sizeof_struct.
  change (max_align _) with 16.
  match goal with
  | |- align_up (place ?fs 0) 16 = _ => rewrite <- (firstn_skipn 8 fs)
  end.
  rewrite place_app.
  match goal with
  | |- context [place (firstn 8 ?fs) 0] =>
      change (place (firstn 8 fs) 0) with 144
  end.
  cbn [skipn place fty fld]. light_sizes.
  by_align16 9.
  by_align16 (9 + 4 * np).
  by_align16 (9 + 4 * np + 7 * ns).
  by_align16 (10 + 4 * np + 7 * ns).
  by_align16 (10 + 4 * np + 7 * ns + 4 * nc).
  lia.
Qed.

Lemma LightingData_with_offsets (np ns nc : Z) :
  skipn 8 (field_offsets (LightingData_with np ns nc)) =
    [ ("pointLights", 144);
      ("spotLights", 144 + 64 * np);
      ("cascadeDistances", 144 + 64 * np + 112 * ns);
      ("shadowMatrices", 160 + 64 * np + 112 * ns) ].
Proof.
  unfold field_offsets, LightingData_with. cbn [fields_of].
  match goal with
  | |- skipn 8 (offsets_from ?fs 0) = _ => rewrite <- (firstn_skipn 8 fs)
  end.
  rewrite offsets_from_app.
  match goal with
  | |- context [place (firstn 8 ?fs) 0] =>
      change (place (firstn 8 fs) 0) with 144
  end.
  rewrite skipn_app.
  match goal with
  | |- (skipn 8 ?a ++ skipn ?k ?b)%list = _ =>
      change (skipn 8 a) with (@nil (string * Z)); change k with 0%nat
  end.
  cbn [skipn app offsets_from fty fname fld]. light_sizes.
  by_align16 9.
  by_align16 (9 + 4 * np).
  by_align16 (9 + 4 * np + 7 * ns).
  by_align16 (10 + 4 * np + 7 * ns).
  do 3 (apply f_equal2; [reflexivity|]).
  apply f_equal2; [|reflexivity].
  apply f_equal2; [reflexivity|lia].
Qed.

(** X9: whatever positive capacities the three macros are given, the first
    eight fields of LightingData stay where they are, pointLights starts at
    offset 144, spotLights right after the point lights, cascadeDistances
    right after the spot lights and shadowMatrices 16 bytes later, with no
    gap; the size is 160 + 64 * points + 112 * spots + 64 * cascades and
    remains a multiple of 16.  With the header's values 8, 8 and 4 this is
    LightingData itself. *)
Theorem LightingData_layout_for_any_capacity (np ns nc : Z) :
  0 < np -> 0 < ns -> 0 < nc ->
  firstn 8 (field_offsets (LightingData_with np ns nc)) =
    firstn 8 (field_offsets LightingData) /\
  skipn 8 (field_offsets (LightingData_with np ns nc)) =
    [ ("pointLights", 144);
      ("spotLights", 144 + sizeof PointLightData * np);
      ("cascadeDistances",
        144 + sizeof PointLightData * np + sizeof SpotLightData * ns);
      ("shadowMatrices",
        160 + sizeof PointLightData * np + sizeof SpotLightData * ns) ] /\
  sizeof (LightingData_with np ns nc) =
    160 + sizeof PointLightData * np + sizeof SpotLightData * ns
      + sizeof Tsimd_float4x4 * nc /\
  sizeof (LightingData_with np ns nc) mod 16 = 0 /\
  LightingData_with MAX_POINT_LIGHTS MAX_SPOT_LIGHTS MAX_CASCADE_COUNT
    = LightingData.
Proof.
  intros _ _ _.
  change (sizeof PointLightData) with 64.
  change (sizeof SpotLightData) with 112.
  change (sizeof Tsimd_float4x4) with 64.
  split; [reflexivity|].
  split; [apply LightingData_with_offsets|].
  split; [apply LightingData_with_size|].
  split; [|reflexivity].
  rewrite LightingData_with_size.
  replace (160 + 64 * np + 112 * ns + 64 * nc)
    with ((10 + 4 * np + 7 * ns + 4 * nc) * 16) by lia.
  apply Z.mod_mul. lia.
Qed.

(** X9 at the header's capacities 8, 8 and 4. *)
Lemma LightingData_layout_for_header_capacity :
  skipn 8 (field_offsets LightingData) =
    [ ("pointLights", 144); ("spotLights", 656);
      ("cascadeDistances", 1552); ("shadowMatrices", 1568) ] /\
  sizeof LightingData = 1824.
Proof.
  destruct (LightingData_layout_for_any_capacity
              MAX_POINT_LIGHTS MAX_SPOT_LIGHTS MAX_CASCADE_COUNT)
    as [_ [H2 [H3 _]]]; try reflexivity.
  split; [exact H2|exact H3].
Defined.

(** ** Fields found by name *)

Lemma place_ge (l : list field) (off : Z) :
  Forall (fun f => 0 < sizeof (fty f)) l -> off <= place l off.
Proof.
  intros H. revert off. induction H as [|f l Hf _ IH]; intros off; simpl.
  - lia.
  - pose proof (align_up_bounds off _ (alignof_pos (fty f))).
    specialize (IH (align_up off (alignof (fty f)) + sizeof (fty f))). lia.
Qed.

Lemma assoc_offset_inside (l : list field) (off : Z) (m : string)
    (o : Z) (ty : ctype) :
  Forall (fun f => 0 < sizeof (fty f)) l ->
  assoc m (offsets_from l off) = Some o ->
  assoc m (map (fun f => (fname f, fty f)) l) = Some ty ->
  off <= o /\ o + sizeof ty <= place l off.
Proof.
  intros H. revert off. induction H as [|f l Hf Hl IH]; intros off; simpl.
  - discriminate.
  - pose proof (align_up_bounds off _ (alignof_pos (fty f))) as Hb.
    destruct (String.eqb m (fname f)).
    + intros Ho Ht. injection Ho as <-. injection Ht as <-.
      split; [lia|]. apply place_ge, Hl.
    + intros Ho Ht. destruct (IH _ Ho Ht) as [H1 H2]. split; [lia|exact H2].
Qed.

Lemma header_structs_shape :
  Forall (fun t => Forall (fun f => 0 < sizeof (fty f)) (fields_of t) /\
                   alignof t = 16 /\
                   t = Tstruct (struct_name t) (fields_of t)) all_structs.
Proof.
  unfold all_structs.
  repeat (apply Forall_cons;
          [split; [positive_sizes|split; reflexivity]|]).
  apply Forall_nil.
Qed.

(** X10: in every structure of the header, a field looked up by its name
    starts at an offset that is not negative and a multiple of the
    alignment of its type, and ends inside the structure, whose own
    alignment is 16 bytes. *)
Theorem named_field_aligned_and_inside
    (t : ctype) (m : string) (o : Z) (ty : ctype) :
  In t all_structs ->
  offsetof t m = Some o -> field_type t m = Some ty ->
  0 <= o /\ o mod alignof ty = 0 /\ o + sizeof ty <= sizeof t /\
  alignof t = 16.
Proof.
  intros Hin Ho Ht.
  pose proof header_structs_shape as H. rewrite Forall_forall in H.
  destruct (H t Hin) as [Hpos [Hal Hshape]].
  destruct (assoc_offset_inside _ 0 m o ty Hpos Ho Ht) as [H0 Hend].
  repeat split; [exact H0|exact (offsetof_aligned t m o ty Ho Ht)| |exact Hal].
  rewrite Hshape at 1. rewrite sizeof_struct.
  assert (0 < max_align (fields_of t)) as Hp.
  { rewrite <- (alignof_struct (struct_name t)). apply alignof_pos. }
  pose proof (align_up_bounds (place (fields_of t) 0) _ Hp). lia.
Qed.

(** X10 at ShadowUniforms.padding, a vector placed at offset 80 after the
    float bias at offset 64. *)
Lemma named_field_aligned_and_inside_ShadowUniforms_padding :
  offsetof ShadowUniforms "padding" = Some 80 /\
  (0 <= 80 /\ 80 mod alignof Tsimd_float3 = 0 /\
   80 + sizeof Tsimd_float3 <= sizeof ShadowUniforms /\
   alignof ShadowUniforms = 16).
Proof.
  split; [reflexivity|].
  apply (named_field_aligned_and_inside ShadowUniforms "padding" 80
           Tsimd_float3); try reflexivity.
  unfold all_structs. simpl. tauto.
Defined.
